(** * Job-lifecycle decision functions of the Flink operator

    A shallow embedding of [apis/flinkcluster/v1beta1/flinkcluster_types_util.go]:
    the job state classifier, the savepoint freshness check, the restart and
    update gates, and the high-availability property validator.

    Go pointers that may be nil are [option]s; a nil dereference or a panic of
    a callee is the [Panic] outcome of the [result] type. *)

From Stdlib Require Import ZArith String Ascii List Bool Lia.
From stdpp Require Import base option strings gmap.

Local Open Scope Z_scope.
Local Open Scope string_scope.

(** ** Outcome of a Go call: a value, or a run-time panic *)

Inductive result (A : Type) : Type :=
| Ok (a : A)
| Panic.

Arguments Ok {A} a.
Arguments Panic {A}.

#[global] Instance result_ret : MRet result := fun A a => Ok a.

#[global] Instance result_bind : MBind result := fun A B k r =>
  match r with
  | Ok a => k a
  | Panic => Panic
  end.

(** [a && b] of Go with a right operand that may panic: the right operand is
    evaluated only when the left one is true. *)
Definition andThen (a : bool) (b : result bool) : result bool :=
  if a then b else Ok false.

(** ** Strings of the Go standard library, on UTF-8 byte strings *)

Definition byteIs (c : ascii) (n : N) : bool := N.eqb (N_of_ascii c) n.

(** The six ASCII members of [unicode.IsSpace]: tab, LF, VT, FF, CR, space. *)
Definition isASCIISpace (c : ascii) : bool :=
  let n := N_of_ascii c in
  ((9 <=? n)%N && (n <=? 13)%N) || (n =? 32)%N.

(** U+0085 and U+00A0, as the two bytes of their UTF-8 encoding. *)
Definition isSpace2 (c1 c2 : ascii) : bool :=
  byteIs c1 194 && (byteIs c2 133 || byteIs c2 160).

(** U+1680, U+2000..U+200A, U+2028, U+2029, U+202F, U+205F and U+3000, as the
    three bytes of their UTF-8 encoding. *)
Definition isSpace3 (c1 c2 c3 : ascii) : bool :=
  (byteIs c1 225 && byteIs c2 154 && byteIs c3 128)
  || (byteIs c1 226 && byteIs c2 128
      && (((128 <=? N_of_ascii c3)%N && (N_of_ascii c3 <=? 138)%N)
          || byteIs c3 168 || byteIs c3 169 || byteIs c3 175))
  || (byteIs c1 226 && byteIs c2 129 && byteIs c3 159)
  || (byteIs c1 227 && byteIs c2 128 && byteIs c3 128).

(** Leading white space runes removed ([strings.TrimLeftFunc] with
    [unicode.IsSpace]). *)
Fixpoint trimLeftSpace (s : string) : string :=
  match s with
  | EmptyString => EmptyString
  | String c1 r1 =>
    if isASCIISpace c1 then trimLeftSpace r1
    else match r1 with
         | EmptyString => s
         | String c2 r2 =>
           if isSpace2 c1 c2 then trimLeftSpace r2
           else match r2 with
                | EmptyString => s
                | String c3 r3 =>
                  if isSpace3 c1 c2 c3 then trimLeftSpace r3 else s
                end
         end
  end.

(** The same scan on the reversed string: the bytes of a rune arrive last
    byte first, as [utf8.DecodeLastRuneInString] reads them. *)
Fixpoint trimLeftSpaceRev (s : string) : string :=
  match s with
  | EmptyString => EmptyString
  | String c1 r1 =>
    if isASCIISpace c1 then trimLeftSpaceRev r1
    else match r1 with
         | EmptyString => s
         | String c2 r2 =>
           if isSpace2 c2 c1 then trimLeftSpaceRev r2
           else match r2 with
                | EmptyString => s
                | String c3 r3 =>
                  if isSpace3 c3 c2 c1 then trimLeftSpaceRev r3 else s
                end
         end
  end.

Definition trimRightSpace (s : string) : string :=
  String.rev (trimLeftSpaceRev (String.rev s)).

(** [strings.TrimSpace]. *)
Definition TrimSpace (s : string) : string :=
  trimRightSpace (trimLeftSpace s).

(** [strings.ToLower] on the ASCII letters. A rune outside ASCII is kept as it
    is here, where Go maps it to its lower case; no such rune lowers to one of
    the letters of ["none"], the only string the result is compared with, so
    the comparison is the one Go makes. *)
Definition lowerByte (c : ascii) : ascii :=
  let n := N_of_ascii c in
  if (65 <=? n)%N && (n <=? 90)%N then ascii_of_N (n + 32) else c.

Fixpoint ToLower (s : string) : string :=
  match s with
  | EmptyString => EmptyString
  | String c r => String (lowerByte c) (ToLower r)
  end.

(** [fmt.Sprintf("%s-cluster-config-map", v)]. *)
Definition haConfigMapSuffix : string := "-cluster-config-map".

Definition sprintfConfigMap (v : string) : string := v ++ haConfigMapSuffix.

(** ** [time.Time] *)

(** An instant, counted in nanoseconds from January 1, year 1, 00:00:00 UTC;
    the zero value of the Go struct is that instant. *)
Record Time : Type := mkTime { nanos : Z }.

Definition zeroTime : Time := mkTime 0.

Definition IsZero (t : Time) : bool := Z.eqb (nanos t) 0.

Definition second : Z := 1000000000.

(** [t.Add(n * time.Second)] for a whole number of seconds. *)
Definition addSeconds (t : Time) (n : Z) : Time := mkTime (nanos t + n * second).

(** [metav1.Time.IsZero], defined on a nil pointer too. *)
Definition metaIsZero (t : option Time) : bool :=
  match t with
  | None => true
  | Some t' => IsZero t'
  end.

(** ** Data model *)

(** Modelled from the spec: the declarations of the job states, the restart
    policies and the records [JobStatus], [JobSpec] and [FlinkCluster] are in
    [flinkcluster_types.go], outside the file embedded here. The state and the
    policy are open string types whose constants carry the names of section 3
    of the specification; the records have the fields the functions read. *)
Definition JobState : Type := string.

Definition JobStatePending : JobState := "Pending".
Definition JobStateDeploying : JobState := "Deploying".
Definition JobStateRunning : JobState := "Running".
Definition JobStateUpdating : JobState := "Updating".
Definition JobStateRestarting : JobState := "Restarting".
Definition JobStateSucceeded : JobState := "Succeeded".
Definition JobStateCancelled : JobState := "Cancelled".
Definition JobStateFailed : JobState := "Failed".
Definition JobStateLost : JobState := "Lost".
Definition JobStateDeployFailed : JobState := "DeployFailed".

(** The ten lifecycle states of the data model. *)
Definition definedJobStates : list JobState :=
  JobStatePending :: JobStateDeploying :: JobStateRunning
  :: JobStateUpdating :: JobStateRestarting :: JobStateSucceeded
  :: JobStateCancelled :: JobStateFailed :: JobStateLost
  :: JobStateDeployFailed :: nil.

Definition JobRestartPolicy : Type := string.

Definition JobRestartPolicyNever : JobRestartPolicy := "Never".
Definition JobRestartPolicyFromSavepointOnFailure : JobRestartPolicy :=
  "FromSavepointOnFailure".

Record JobStatus : Type := mkJobStatus {
  State : JobState;
  SavepointLocation : string;
  SavepointTime : string;
  FinalSavepoint : bool;
  CompletionTime : option Time
}.

Record JobSpec : Type := mkJobSpec {
  RestartPolicy : option JobRestartPolicy;
  MaxStateAgeToRestoreSeconds : option Z;
  TakeSavepointOnUpdate : option bool;
  FromSavepoint : option string
}.

(** [fc.Spec.FlinkProperties]: a Go map, which may be nil. *)
Record FlinkClusterSpec : Type := mkFlinkClusterSpec {
  FlinkProperties : option (gmap string string)
}.

Record FlinkCluster : Type := mkFlinkCluster {
  Spec : FlinkClusterSpec
}.

Definition haConfigType : string := "high-availability".
Definition haConfigStorageDir : string := "high-availability.storageDir".
Definition haConfigClusterId : string := "kubernetes.cluster-id".

(** ** Job state classifier *)

Definition stateIs (js : JobStatus) (s : JobState) : bool :=
  String.eqb (State js) s.

Definition IsActive (j : option JobStatus) : bool :=
  match j with
  | None => false
  | Some js => stateIs js JobStateRunning || stateIs js JobStateDeploying
  end.

Definition IsPending (j : option JobStatus) : bool :=
  match j with
  | None => false
  | Some js =>
    stateIs js JobStatePending
    || stateIs js JobStateUpdating
    || stateIs js JobStateRestarting
  end.

Definition IsFailed (j : option JobStatus) : bool :=
  match j with
  | None => false
  | Some js =>
    stateIs js JobStateFailed
    || stateIs js JobStateLost
    || stateIs js JobStateDeployFailed
  end.

Definition IsStopped (j : option JobStatus) : bool :=
  match j with
  | None => false
  | Some js =>
    stateIs js JobStateSucceeded
    || stateIs js JobStateCancelled
    || IsFailed j
  end.

Definition isBlank (s : option string) : bool :=
  match s with
  | None => true
  | Some v => String.eqb (TrimSpace v) ""
  end.

(** ** Savepoint freshness, restart and update gates *)

Section Evaluators.

(** [util.HasTimeElapsed timeToCheckStr now intervalSec] of the package
    [internal/util], which the file imports: a parameter of the gates. It
    reads a time stamp out of a string, so it may panic. *)
Variable HasTimeElapsed : string -> Time -> Z -> result bool.

Definition IsSavepointUpToDate (j : option JobStatus) (spec : option JobSpec)
    (compareTime : Time) : result bool :=
  match j with
  | None => Panic
  | Some js =>
    if FinalSavepoint js then Ok true
    else if IsZero compareTime then Ok false
    else match spec with
         | None => Panic
         | Some sp =>
           match MaxStateAgeToRestoreSeconds sp with
           | None => Ok false
           | Some stateMaxAge =>
             if String.eqb (SavepointLocation js) "" then Ok false
             else if String.eqb (SavepointTime js) "" then Ok false
             else elapsed ← HasTimeElapsed (SavepointTime js) compareTime stateMaxAge;
                  mret (negb elapsed)
           end
         end
  end.

Definition ShouldRestart (j : option JobStatus) (spec : option JobSpec)
    : result bool :=
  match j with
  | None => Ok false
  | Some js =>
    if negb (IsFailed j) then Ok false
    else match spec with
         | None => Ok false
         | Some sp =>
           let restartEnabled :=
             match RestartPolicy sp with
             | None => false
             | Some p => String.eqb p JobRestartPolicyFromSavepointOnFailure
             end in
           let jobCompletionTime :=
             match CompletionTime js with
             | None => zeroTime
             | Some t => t
             end in
           andThen restartEnabled (IsSavepointUpToDate j spec jobCompletionTime)
         end
  end.

Definition IsTerminated (j : option JobStatus) (spec : option JobSpec)
    : result bool :=
  andThen (IsStopped j) (restart ← ShouldRestart j spec; mret (negb restart)).

Definition UpdateReady (j : option JobStatus) (spec : option JobSpec)
    (observeTime : Time) : result bool :=
  match spec with
  | None => Panic
  | Some sp =>
    let takeSavepointOnUpdate :=
      match TakeSavepointOnUpdate sp with
      | None => true
      | Some b => b
      end in
    match j with
    | None => Ok true
    | Some js =>
      if negb (isBlank (FromSavepoint sp)) then Ok true
      else if IsActive j then
        if takeSavepointOnUpdate then
          if FinalSavepoint js then Ok true else Ok false
        else
          fresh ← IsSavepointUpToDate j spec observeTime;
          if (fresh : bool) then Ok true else Ok false
      else if stateIs js JobStateUpdating && negb takeSavepointOnUpdate then
        Ok true
      else
        let jobCompletionTime :=
          if negb (metaIsZero (CompletionTime js))
          then match CompletionTime js with
               | None => zeroTime
               | Some t => t
               end
          else zeroTime in
        fresh ← IsSavepointUpToDate j spec jobCompletionTime;
        if (fresh : bool) then Ok true else Ok false
    end
  end.

End Evaluators.

(** ** High-availability properties *)

(** [v, ok := m[k]] on a map that is not nil. *)
Definition mapLookup (m : gmap string string) (k : string) : option string :=
  m !! k.

Definition IsHighAvailabilityEnabled (fc : FlinkCluster) : bool :=
  match FlinkProperties (Spec fc) with
  | None => false
  | Some props =>
    match mapLookup props haConfigType with
    | None => false
    | Some v =>
      if String.eqb (ToLower v) "none" then false
      else match mapLookup props haConfigClusterId with
           | None => false
           | Some v =>
             if String.eqb (TrimSpace v) "" then false
             else match mapLookup props haConfigStorageDir with
                  | None => false
                  | Some v =>
                    if String.eqb (TrimSpace v) "" then false else true
                  end
           end
    end
  end.

(** [m[k]] of Go: the zero value when the map is nil or has no such key. *)
Definition mapIndex (m : option (gmap string string)) (k : string) : string :=
  match m with
  | None => ""
  | Some props => default "" (mapLookup props k)
  end.

Definition GetHAConfigMapName (fc : FlinkCluster) : string :=
  if negb (IsHighAvailabilityEnabled fc) then ""
  else sprintfConfigMap (mapIndex (FlinkProperties (Spec fc)) haConfigClusterId).

(** Modelled from the spec: [HasTimeElapsed] is defined in the package
    [internal/util], outside the file embedded here. By rule 3 of section 4.2
    the savepoint is up to date if and only if the time elapsed between
    [savepointTime] and [compareTime] is strictly less than the maximal age,
    and [IsSavepointUpToDate] returns the negation of the helper: the helper
    answers whether the elapsed time has reached [intervalSec] seconds. The
    specification fixes the time stamp only as a parseable string, so the
    parser is an argument; on a string it rejects the call has no value. *)
Definition specHasTimeElapsed (parseTime : string -> option Time)
    (timeToCheckStr : string) (now : Time) (intervalSec : Z) : result bool :=
  match parseTime timeToCheckStr with
  | None => Panic
  | Some t => Ok (negb (Z.ltb (nanos now - nanos t) (intervalSec * second)))
  end.

(** A clock for the scenarios of section 8 of the specification, whose only
    time stamp is ["t0"]: it stands for the instant 1000 seconds after the
    zero instant. *)
Definition t0 : Time := mkTime (1000 * second).

Definition scenarioClock (s : string) : option Time :=
  if String.eqb s "t0" then Some t0 else None.

(** Exactly one of the listed predicates holds. *)
Definition exactlyOne (l : list bool) : Prop :=
  List.length (List.filter (fun b => b) l) = 1%nat.

(** The subset {Succeeded, Cancelled} of the partition of section 4.1. *)
Definition isSucceededOrCancelled (j : option JobStatus) : bool :=
  match j with
  | None => false
  | Some js => stateIs js JobStateSucceeded || stateIs js JobStateCancelled
  end.

(** The completeness condition in the words of section 8 of the
    specification: the three keys are present and non-blank, and the
    high-availability value is not ["none"] in any letter case. *)
Definition specHAComplete (fc : FlinkCluster) : bool :=
  match FlinkProperties (Spec fc) with
  | None => false
  | Some props =>
    match mapLookup props haConfigType, mapLookup props haConfigClusterId,
          mapLookup props haConfigStorageDir with
    | Some t, Some c, Some d =>
      negb (isBlank (Some t)) && negb (isBlank (Some c))
      && negb (isBlank (Some d)) && negb (String.eqb (ToLower t) "none")
    | _, _, _ => false
    end
  end.

Definition clusterOf (props : gmap string string) : FlinkCluster :=
  mkFlinkCluster (mkFlinkClusterSpec (Some props)).

(** ** Inputs of the scenarios *)

(** Scenario B: a failed job with a final savepoint. *)
Definition jobFailedFinal : JobStatus :=
  mkJobStatus JobStateFailed "s3://x" "t0" true None.

Definition specRestart : JobSpec :=
  mkJobSpec (Some JobRestartPolicyFromSavepointOnFailure) None None None.

(** Scenario D: a running job, before and after its final savepoint. *)
Definition jobRunning : JobStatus :=
  mkJobStatus JobStateRunning "" "" false None.

Definition jobRunningFinal : JobStatus :=
  mkJobStatus JobStateRunning "s3://x" "t0" true None.

Definition specDefault : JobSpec := mkJobSpec None None None None.

(** A running job with a savepoint taken at [t0] that is not final, and a spec
    that accepts a state of less than 60 seconds and takes no savepoint on
    update. *)
Definition jobRunningSaved : JobStatus :=
  mkJobStatus JobStateRunning "s3://x" "t0" false None.

Definition specMaxAge60 : JobSpec :=
  mkJobSpec None (Some 60) (Some false) None.

(** A job in the middle of an update. *)
Definition jobUpdating : JobStatus :=
  mkJobStatus JobStateUpdating "" "" false None.

(** A job in a state that is none of the ten, with a final savepoint. *)
Definition jobSuspendedFinal : JobStatus :=
  mkJobStatus "Suspended" "s3://x" "t0" true None.

(** Scenario E. *)
Definition clusterE : FlinkCluster :=
  clusterOf (<[haConfigType := "zookeeper"]>
             (<[haConfigClusterId := "c1"]>
              (<[haConfigStorageDir := "s3://ha"]> ∅))).

(** Scenario E with an empty high-availability value. *)
Definition clusterBlankType : FlinkCluster :=
  clusterOf (<[haConfigType := ""]>
             (<[haConfigClusterId := "c1"]>
              (<[haConfigStorageDir := "s3://ha"]> ∅))).

(** Scenario E with spaces around the cluster id. *)
Definition clusterSpacedId : FlinkCluster :=
  clusterOf (<[haConfigType := "zookeeper"]>
             (<[haConfigClusterId := " c1 "]>
              (<[haConfigStorageDir := "s3://ha"]> ∅))).

(** A clock that reads every time stamp as [t0]: a [HasTimeElapsed] built on
    it has a value on every input. *)
Definition steadyClock (s : string) : option Time := Some t0.

(** A failed job with a savepoint that is not final, stopped 30 seconds after
    the savepoint. *)
Definition jobFailedSaved : JobStatus :=
  mkJobStatus JobStateFailed "s3://x" "t0" false (Some (addSeconds t0 30)).

Definition specRestartMaxAge60 : JobSpec :=
  mkJobSpec (Some JobRestartPolicyFromSavepointOnFailure) (Some 60) None None.

Definition jobSucceeded : JobStatus :=
  mkJobStatus JobStateSucceeded "" "" false (Some (addSeconds t0 30)).

(** A spec that names the savepoint to start from. *)
Definition specFromSavepoint : JobSpec :=
  mkJobSpec None None None (Some "s3://given").

(** ** Predicates on strings used in the statements *)

Fixpoint allBytes (p : ascii -> bool) (s : string) : bool :=
  match s with
  | EmptyString => true
  | String c r => p c && allBytes p r
  end.

Fixpoint someByte (p : ascii -> bool) (s : string) : bool :=
  match s with
  | EmptyString => false
  | String c r => p c || someByte p r
  end.

(** An ASCII byte that is not white space. *)
Definition isVisibleASCII (c : ascii) : bool :=
  (N_of_ascii c <? 128)%N && negb (isASCIISpace c).

(** The sixteen spellings of ["none"] in upper and lower case letters. *)
Definition noneSpellings : list string :=
  ["none"; "nonE"; "noNe"; "noNE";
   "nOne"; "nOnE"; "nONe"; "nONE";
   "None"; "NonE"; "NoNe"; "NoNE";
   "NOne"; "NOnE"; "NONe"; "NONE"].

(** The properties of scenario E, and the same with high availability
    switched off by the value ["None"]. *)
Definition propsE : gmap string string :=
  <[haConfigType := "zookeeper"]>
    (<[haConfigClusterId := "c1"]>
       (<[haConfigStorageDir := "s3://ha"]> ∅)).

Definition propsOff : gmap string string :=
  <[haConfigType := "None"]> propsE.

(** * Properties *)

(** ** The string functions on small inputs *)

Example TrimSpace_spaced : TrimSpace " c1 " = "c1".
Proof. reflexivity. Qed.

Example TrimSpace_blank : TrimSpace "   " = "".
Proof. reflexivity. Qed.

Example TrimSpace_inner : TrimSpace "a b" = "a b".
Proof. reflexivity. Qed.

Example ToLower_mixed : ToLower "NoNe" = "none".
Proof. reflexivity. Qed.

(** ** The [result] type *)

Lemma bind_bool_eta (r : result bool) :
  (b ← r; if (b : bool) then Ok true else Ok false) = r.
Proof. destruct r as [[|]|]; reflexivity. Qed.

Lemma bind_Ok_inv {A B : Type} (r : result A) (k : A -> result B) (b : B) :
  (a ← r; k a) = Ok b -> exists a, r = Ok a /\ k a = Ok b.
Proof. destruct r as [a|]; simpl; [eauto | discriminate]. Qed.

Lemma andThen_true (a : bool) (b : result bool) :
  andThen a b = Ok true <-> a = true /\ b = Ok true.
Proof.
  destruct a; simpl; split.
  - auto.
  - intros [_ Hb]; exact Hb.
  - discriminate.
  - intros [Ha _]; discriminate.
Qed.

(** ** Facts on the classifier *)

Lemma stateIs_true (js : JobStatus) (s : JobState) :
  stateIs js s = true <-> State js = s.
Proof. unfold stateIs. apply String.eqb_eq. Qed.

Lemma stateIs_false (js : JobStatus) (s : JobState) :
  stateIs js s = false <-> State js <> s.
Proof. unfold stateIs. apply String.eqb_neq. Qed.

Lemma stateIs_undefined (js : JobStatus) (s : JobState) :
  ~ List.In (State js) definedJobStates ->
  List.In s definedJobStates ->
  stateIs js s = false.
Proof.
  intros Hout Hin. apply stateIs_false. intros Heq. apply Hout.
  rewrite Heq. exact Hin.
Qed.

Ltac defined_state := unfold definedJobStates; simpl; tauto.

Lemma classifier_undefined (js : JobStatus) :
  ~ List.In (State js) definedJobStates ->
  IsActive (Some js) = false
  /\ IsPending (Some js) = false
  /\ IsFailed (Some js) = false
  /\ IsStopped (Some js) = false.
Proof.
  intros Hout. unfold IsStopped, IsFailed, IsPending, IsActive.
  rewrite !(stateIs_undefined js _ Hout) by defined_state.
  repeat split.
Qed.

Lemma IsStopped_split (j : option JobStatus) :
  IsStopped j = isSucceededOrCancelled j || IsFailed j.
Proof. destruct j; reflexivity. Qed.

(** Each defined state lies in one class of the partition. *)
Lemma classifier_partition (js : JobStatus) :
  List.In (State js) definedJobStates ->
  exactlyOne [IsActive (Some js); IsPending (Some js); IsFailed (Some js);
              isSucceededOrCancelled (Some js)].
Proof.
  intros Hin.
  unfold exactlyOne, IsActive, IsPending, IsFailed, isSucceededOrCancelled,
    stateIs.
  unfold definedJobStates in Hin. simpl in Hin.
  repeat (destruct Hin as [Hin | Hin]; [rewrite <- Hin; reflexivity|]).
  contradiction.
Qed.

Section EvaluatorFacts.

Variable HasTimeElapsed : string -> Time -> Z -> result bool.

Lemma ShouldRestart_failed (js : JobStatus) (sp : JobSpec) :
  IsFailed (Some js) = true ->
  ShouldRestart HasTimeElapsed (Some js) (Some sp)
  = andThen
      (match RestartPolicy sp with
       | None => false
       | Some p => String.eqb p JobRestartPolicyFromSavepointOnFailure
       end)
      (IsSavepointUpToDate HasTimeElapsed (Some js) (Some sp)
         (default zeroTime (CompletionTime js))).
Proof.
  intros Hf. unfold ShouldRestart. rewrite Hf. simpl.
  destruct (CompletionTime js); reflexivity.
Qed.

Lemma restartEnabled_true (sp : JobSpec) :
  match RestartPolicy sp with
  | None => false
  | Some p => String.eqb p JobRestartPolicyFromSavepointOnFailure
  end = true
  <-> RestartPolicy sp = Some JobRestartPolicyFromSavepointOnFailure.
Proof.
  destruct (RestartPolicy sp) as [p|]; split; intros H.
  - apply String.eqb_eq in H. now subst.
  - injection H as ->. apply String.eqb_refl.
  - discriminate.
  - discriminate.
Qed.

(** C1. [ShouldRestart] is false when the status is absent, when the status is
    not classified Failed, and when the spec is absent. On a Failed status and
    a present spec it is true if and only if the restart policy is
    [FromSavepointOnFailure] and the savepoint is up to date as of the
    completion time, the zero time when that is unset; with another policy it
    is false. So whenever it is true the freshness check holds. *)
Theorem ShouldRestart_spec (j : option JobStatus) (spec : option JobSpec) :
  (j = None \/ IsFailed j = false \/ spec = None ->
   ShouldRestart HasTimeElapsed j spec = Ok false)
  /\ (forall js sp, j = Some js -> spec = Some sp -> IsFailed j = true ->
      (ShouldRestart HasTimeElapsed j spec = Ok true
       <-> RestartPolicy sp = Some JobRestartPolicyFromSavepointOnFailure
           /\ IsSavepointUpToDate HasTimeElapsed j spec
                (default zeroTime (CompletionTime js)) = Ok true)
      /\ (RestartPolicy sp <> Some JobRestartPolicyFromSavepointOnFailure ->
          ShouldRestart HasTimeElapsed j spec = Ok false))
  /\ (ShouldRestart HasTimeElapsed j spec = Ok true ->
      exists js, j = Some js
        /\ IsFailed j = true
        /\ IsSavepointUpToDate HasTimeElapsed j spec
             (default zeroTime (CompletionTime js)) = Ok true).
Proof.
  split; [|split].
  - intros [-> | [Hf | ->]].
    + reflexivity.
    + unfold ShouldRestart. destruct j as [js|]; [|reflexivity].
      rewrite Hf. reflexivity.
    + unfold ShouldRestart. destruct j as [js|]; [|reflexivity].
      destruct (negb (IsFailed (Some js))); reflexivity.
  - intros js sp -> -> Hf. rewrite (ShouldRestart_failed js sp Hf). split.
    + rewrite andThen_true, restartEnabled_true. reflexivity.
    + intros Hp. rewrite <- restartEnabled_true in Hp.
      apply not_true_is_false in Hp. rewrite Hp. reflexivity.
  - destruct j as [js|]; [|discriminate].
    destruct (IsFailed (Some js)) eqn:Hf.
    + destruct spec as [sp|].
      * rewrite (ShouldRestart_failed js sp Hf), andThen_true.
        intros [_ Hu]. exists js. auto.
      * unfold ShouldRestart. rewrite Hf. discriminate.
    + unfold ShouldRestart. rewrite Hf. discriminate.
Qed.

(** C2. With both the status and the spec nil, [UpdateReady] dereferences the
    nil spec for [TakeSavepointOnUpdate] before it looks at the status, and
    panics; [ShouldRestart] returns false. *)
Theorem nil_status_nil_spec (observeTime : Time) :
  UpdateReady HasTimeElapsed None None observeTime = Panic
  /\ ShouldRestart HasTimeElapsed None None = Ok false.
Proof. split; reflexivity. Qed.

(** C3. A final savepoint is up to date for every spec, nil included, and
    every compare time, the zero time included; the recorded location and time
    play no part. *)
Theorem IsSavepointUpToDate_final (js : JobStatus) (spec : option JobSpec)
    (compareTime : Time) :
  FinalSavepoint js = true ->
  IsSavepointUpToDate HasTimeElapsed (Some js) spec compareTime = Ok true.
Proof. intros Hfin. unfold IsSavepointUpToDate. rewrite Hfin. reflexivity. Qed.

Lemma IsSavepointUpToDate_guarded (js : JobStatus) (sp : JobSpec)
    (compareTime : Time) :
  FinalSavepoint js = false ->
  IsZero compareTime = true
  \/ MaxStateAgeToRestoreSeconds sp = None
  \/ SavepointLocation js = ""
  \/ SavepointTime js = "" ->
  IsSavepointUpToDate HasTimeElapsed (Some js) (Some sp) compareTime = Ok false.
Proof.
  intros Hfin Hg. unfold IsSavepointUpToDate. rewrite Hfin.
  destruct (IsZero compareTime); [reflexivity|].
  destruct (MaxStateAgeToRestoreSeconds sp) as [n|]; [|reflexivity].
  destruct (String.eqb_spec (SavepointLocation js) ""); [reflexivity|].
  destruct (String.eqb_spec (SavepointTime js) ""); [reflexivity|].
  destruct Hg as [Hg | [Hg | [Hg | Hg]]]; congruence.
Qed.

Lemma IsSavepointUpToDate_measured (js : JobStatus) (sp : JobSpec)
    (compareTime : Time) (stateMaxAge : Z) :
  FinalSavepoint js = false ->
  IsZero compareTime = false ->
  MaxStateAgeToRestoreSeconds sp = Some stateMaxAge ->
  SavepointLocation js <> "" ->
  SavepointTime js <> "" ->
  IsSavepointUpToDate HasTimeElapsed (Some js) (Some sp) compareTime
  = (elapsed ← HasTimeElapsed (SavepointTime js) compareTime stateMaxAge;
     mret (negb elapsed)).
Proof.
  intros Hfin Hz Hmax Hloc Htime. unfold IsSavepointUpToDate.
  rewrite Hfin, Hz, Hmax.
  apply String.eqb_neq in Hloc. apply String.eqb_neq in Htime.
  rewrite Hloc, Htime. reflexivity.
Qed.

Lemma jobCompletionTime_default (c : option Time) :
  (if negb (metaIsZero c)
   then match c with
        | None => zeroTime
        | Some t => t
        end
   else zeroTime) = default zeroTime c.
Proof.
  destruct c as [[n]|]; simpl; [|reflexivity].
  unfold IsZero; simpl. destruct (Z.eqb_spec n 0); simpl.
  - subst. reflexivity.
  - reflexivity.
Qed.

Lemma Updating_not_active (js : JobStatus) :
  State js = JobStateUpdating -> IsActive (Some js) = false.
Proof. intros Hs. unfold IsActive, stateIs. rewrite Hs. reflexivity. Qed.

(** The default branch of the switch of [UpdateReady]. *)
Lemma UpdateReady_default (js : JobStatus) (sp : JobSpec) (observeTime : Time) :
  isBlank (FromSavepoint sp) = true ->
  IsActive (Some js) = false ->
  stateIs js JobStateUpdating
  && negb (match TakeSavepointOnUpdate sp with
           | None => true
           | Some b => b
           end) = false ->
  UpdateReady HasTimeElapsed (Some js) (Some sp) observeTime
  = IsSavepointUpToDate HasTimeElapsed (Some js) (Some sp)
      (default zeroTime (CompletionTime js)).
Proof.
  intros Hb Ha Hu. unfold UpdateReady. rewrite Hb, Ha, Hu. simpl negb. cbv iota.
  rewrite jobCompletionTime_default. apply bind_bool_eta.
Qed.

(** C5. On an Active status (Running or Deploying) with a blank
    [fromSavepoint]: when [takeSavepointOnUpdate] is true or absent,
    [UpdateReady] is the [finalSavepoint] flag; when it is false,
    [UpdateReady] is the freshness of the savepoint as of the observe time. *)
Theorem UpdateReady_active (js : JobStatus) (sp : JobSpec) (observeTime : Time) :
  IsActive (Some js) = true ->
  isBlank (FromSavepoint sp) = true ->
  (TakeSavepointOnUpdate sp = Some true \/ TakeSavepointOnUpdate sp = None ->
   UpdateReady HasTimeElapsed (Some js) (Some sp) observeTime
   = Ok (FinalSavepoint js))
  /\ (TakeSavepointOnUpdate sp = Some false ->
      UpdateReady HasTimeElapsed (Some js) (Some sp) observeTime
      = IsSavepointUpToDate HasTimeElapsed (Some js) (Some sp) observeTime).
Proof.
  intros Ha Hb. unfold UpdateReady. rewrite Hb, Ha. simpl negb. cbv iota.
  split.
  - intros [-> | ->]; destruct (FinalSavepoint js); reflexivity.
  - intros ->. apply bind_bool_eta.
Qed.

(** C6. On a status whose state is exactly Updating, with a blank
    [fromSavepoint]: when [takeSavepointOnUpdate] is false, [UpdateReady] is
    true; when it is true or absent, the call reaches the default branch and
    is the freshness of the savepoint as of the completion time, the zero time
    when that is unset. *)
Theorem UpdateReady_updating (js : JobStatus) (sp : JobSpec) (observeTime : Time) :
  State js = JobStateUpdating ->
  isBlank (FromSavepoint sp) = true ->
  (TakeSavepointOnUpdate sp = Some false ->
   UpdateReady HasTimeElapsed (Some js) (Some sp) observeTime = Ok true)
  /\ (TakeSavepointOnUpdate sp = Some true \/ TakeSavepointOnUpdate sp = None ->
      UpdateReady HasTimeElapsed (Some js) (Some sp) observeTime
      = IsSavepointUpToDate HasTimeElapsed (Some js) (Some sp)
          (default zeroTime (CompletionTime js))).
Proof.
  intros Hs Hb. pose proof (Updating_not_active js Hs) as Ha. split.
  - intros Ht. unfold UpdateReady. rewrite Hb, Ha, Ht.
    apply stateIs_true in Hs. rewrite Hs. reflexivity.
  - intros Ht. apply UpdateReady_default; [assumption | assumption |].
    destruct Ht as [-> | ->]; apply andb_false_r.
Qed.

(** [IsTerminated] answers true only on a Stopped status. *)
Lemma IsTerminated_IsStopped (j : option JobStatus) (spec : option JobSpec) :
  IsTerminated HasTimeElapsed j spec = Ok true -> IsStopped j = true.
Proof. unfold IsTerminated. rewrite andThen_true. intros [Hs _]. exact Hs. Qed.

(** C9. A present status in one of the ten defined states falls in exactly one
    of Active, Pending, Failed and {Succeeded, Cancelled}, the last two making
    up Stopped; [IsTerminated] is true only on a Stopped status; an absent
    status is in none of Active, Pending, Failed and Stopped. *)
Theorem classification_exclusive (j : option JobStatus) (spec : option JobSpec) :
  (forall js, j = Some js -> List.In (State js) definedJobStates ->
     exactlyOne [IsActive j; IsPending j; IsFailed j; isSucceededOrCancelled j]
     /\ IsStopped j = isSucceededOrCancelled j || IsFailed j)
  /\ (IsTerminated HasTimeElapsed j spec = Ok true -> IsStopped j = true)
  /\ (j = None ->
      IsActive j = false /\ IsPending j = false
      /\ IsFailed j = false /\ IsStopped j = false).
Proof.
  split; [|split].
  - intros js -> Hin. split.
    + apply classifier_partition, Hin.
    + apply IsStopped_split.
  - apply IsTerminated_IsStopped.
  - intros ->. repeat split.
Qed.

(** C8, as the code has it. On a present status whose state is none of the ten
    defined ones, Active, Pending, Failed and Stopped are false and
    [ShouldRestart] is false for every spec. [UpdateReady] with a present spec
    is true when [fromSavepoint] is not blank, and otherwise is the freshness
    of the savepoint as of the completion time, the zero time when that is
    unset: it is true on a final savepoint. *)
Theorem undefined_state_outcomes (js : JobStatus) (spec : option JobSpec)
    (sp : JobSpec) (observeTime : Time) :
  ~ List.In (State js) definedJobStates ->
  (IsActive (Some js) = false /\ IsPending (Some js) = false
   /\ IsFailed (Some js) = false /\ IsStopped (Some js) = false)
  /\ ShouldRestart HasTimeElapsed (Some js) spec = Ok false
  /\ UpdateReady HasTimeElapsed (Some js) (Some sp) observeTime
     = (if negb (isBlank (FromSavepoint sp)) then Ok true
        else IsSavepointUpToDate HasTimeElapsed (Some js) (Some sp)
               (default zeroTime (CompletionTime js)))
  /\ (isBlank (FromSavepoint sp) = true -> FinalSavepoint js = true ->
      UpdateReady HasTimeElapsed (Some js) (Some sp) observeTime = Ok true).
Proof.
  intros Hout. pose proof (classifier_undefined js Hout) as Hc.
  destruct Hc as (Ha & Hp & Hf & Hs).
  assert (Hready :
    UpdateReady HasTimeElapsed (Some js) (Some sp) observeTime
    = (if negb (isBlank (FromSavepoint sp)) then Ok true
       else IsSavepointUpToDate HasTimeElapsed (Some js) (Some sp)
              (default zeroTime (CompletionTime js)))).
  { destruct (isBlank (FromSavepoint sp)) eqn:Hb; simpl negb; cbv iota.
    - apply UpdateReady_default; [assumption | assumption |].
      rewrite (stateIs_undefined js _ Hout) by defined_state. reflexivity.
    - unfold UpdateReady. rewrite Hb. reflexivity. }
  repeat split; try assumption.
  - unfold ShouldRestart. rewrite Hf. reflexivity.
  - intros Hb Hfin. rewrite Hready, Hb. simpl negb. cbv iota.
    unfold IsSavepointUpToDate. rewrite Hfin. reflexivity.
Qed.

End EvaluatorFacts.

(** ** Freshness against the specified [HasTimeElapsed] *)

(** C4. Without a final savepoint the savepoint is not up to date when the
    compare time is zero, the maximal age is absent, or the recorded location
    or time is empty. Otherwise, with the time stamp read as [T], it is up to
    date if and only if the time from [T] to the compare time is strictly less
    than the maximal age [S]: true at [T + S - 1s], false at [T + S]. *)
Theorem IsSavepointUpToDate_not_final (parseTime : string -> option Time)
    (js : JobStatus) (sp : JobSpec) (compareTime : Time) :
  FinalSavepoint js = false ->
  (IsZero compareTime = true
   \/ MaxStateAgeToRestoreSeconds sp = None
   \/ SavepointLocation js = ""
   \/ SavepointTime js = "" ->
   IsSavepointUpToDate (specHasTimeElapsed parseTime) (Some js) (Some sp)
     compareTime = Ok false)
  /\ (forall S T,
      MaxStateAgeToRestoreSeconds sp = Some S ->
      SavepointLocation js <> "" ->
      SavepointTime js <> "" ->
      parseTime (SavepointTime js) = Some T ->
      (IsZero compareTime = false ->
       IsSavepointUpToDate (specHasTimeElapsed parseTime) (Some js) (Some sp)
         compareTime
       = Ok (Z.ltb (nanos compareTime - nanos T) (S * second)))
      /\ (IsZero (addSeconds T (S - 1)) = false ->
          IsSavepointUpToDate (specHasTimeElapsed parseTime) (Some js) (Some sp)
            (addSeconds T (S - 1)) = Ok true)
      /\ IsSavepointUpToDate (specHasTimeElapsed parseTime) (Some js) (Some sp)
           (addSeconds T S) = Ok false).
Proof.
  intros Hfin. split.
  - apply IsSavepointUpToDate_guarded, Hfin.
  - intros S T Hmax Hloc Htime Hparse.
    assert (Hm : forall ct, IsZero ct = false ->
      IsSavepointUpToDate (specHasTimeElapsed parseTime) (Some js) (Some sp) ct
      = Ok (Z.ltb (nanos ct - nanos T) (S * second))).
    { intros ct Hz.
      rewrite (IsSavepointUpToDate_measured _ js sp ct S) by assumption.
      unfold specHasTimeElapsed. rewrite Hparse. simpl.
      rewrite negb_involutive. reflexivity. }
    split; [exact (Hm compareTime)|]. split.
    + intros Hz. rewrite (Hm _ Hz). f_equal. apply Z.ltb_lt.
      unfold addSeconds, second. simpl. lia.
    + destruct (IsZero (addSeconds T S)) eqn:Hz.
      * apply IsSavepointUpToDate_guarded; auto.
      * rewrite (Hm _ Hz). f_equal. apply Z.ltb_ge.
        unfold addSeconds, second. simpl. lia.
Qed.

(** ** High-availability properties *)

Lemma IsHighAvailabilityEnabled_true (fc : FlinkCluster) :
  IsHighAvailabilityEnabled fc = true
  <-> exists props t c d,
        FlinkProperties (Spec fc) = Some props
        /\ mapLookup props haConfigType = Some t
        /\ mapLookup props haConfigClusterId = Some c
        /\ mapLookup props haConfigStorageDir = Some d
        /\ ToLower t <> "none"
        /\ TrimSpace c <> ""
        /\ TrimSpace d <> "".
Proof.
  unfold IsHighAvailabilityEnabled. split.
  - destruct (FlinkProperties (Spec fc)) as [props|]; [|discriminate].
    destruct (mapLookup props haConfigType) as [t|] eqn:Et; [|discriminate].
    destruct (String.eqb_spec (ToLower t) "none") as [|Ht]; [discriminate|].
    destruct (mapLookup props haConfigClusterId) as [c|] eqn:Ec;
      [|discriminate].
    destruct (String.eqb_spec (TrimSpace c) "") as [|Hc]; [discriminate|].
    destruct (mapLookup props haConfigStorageDir) as [d|] eqn:Ed;
      [|discriminate].
    destruct (String.eqb_spec (TrimSpace d) "") as [|Hd]; [discriminate|].
    intros _. exists props, t, c, d. auto 10.
  - intros (props & t & c & d & -> & -> & -> & -> & Ht & Hc & Hd).
    apply String.eqb_neq in Ht, Hc, Hd. rewrite Ht, Hc, Hd. reflexivity.
Qed.

Lemma sprintfConfigMap_nonempty (v : string) : sprintfConfigMap v <> "".
Proof. destruct v; discriminate. Qed.

Lemma GetHAConfigMapName_enabled (fc : FlinkCluster) :
  IsHighAvailabilityEnabled fc = true ->
  GetHAConfigMapName fc
  = mapIndex (FlinkProperties (Spec fc)) haConfigClusterId
    ++ "-cluster-config-map".
Proof. intros He. unfold GetHAConfigMapName. rewrite He. reflexivity. Qed.

Lemma GetHAConfigMapName_empty (fc : FlinkCluster) :
  GetHAConfigMapName fc = "" <-> IsHighAvailabilityEnabled fc = false.
Proof.
  unfold GetHAConfigMapName.
  destruct (IsHighAvailabilityEnabled fc); simpl; split; intros H.
  - exfalso. exact (sprintfConfigMap_nonempty _ H).
  - discriminate.
  - reflexivity.
  - reflexivity.
Qed.

(** C7, as the code has it. High availability is enabled if and only if the
    three keys are present, the [kubernetes.cluster-id] and
    [high-availability.storageDir] values are not blank after trimming, and the
    [high-availability] value is not ["none"] in any letter case; that value
    itself may be blank. The config map name is empty if and only if high
    availability is not enabled, and otherwise is the cluster id followed by
    ["-cluster-config-map"]. *)
Theorem IsHighAvailabilityEnabled_spec (fc : FlinkCluster) :
  (IsHighAvailabilityEnabled fc = true
   <-> exists props t c d,
         FlinkProperties (Spec fc) = Some props
         /\ mapLookup props haConfigType = Some t
         /\ mapLookup props haConfigClusterId = Some c
         /\ mapLookup props haConfigStorageDir = Some d
         /\ ToLower t <> "none"
         /\ isBlank (Some c) = false
         /\ isBlank (Some d) = false)
  /\ (GetHAConfigMapName fc = "" <-> IsHighAvailabilityEnabled fc = false)
  /\ (IsHighAvailabilityEnabled fc = true ->
      exists props c,
        FlinkProperties (Spec fc) = Some props
        /\ mapLookup props haConfigClusterId = Some c
        /\ GetHAConfigMapName fc = c ++ "-cluster-config-map").
Proof.
  split; [|split].
  - rewrite IsHighAvailabilityEnabled_true. unfold isBlank.
    split; intros (props & t & c & d & Hp & Ht & Hc & Hd & Hn & Hbc & Hbd);
      exists props, t, c, d.
    + apply String.eqb_neq in Hbc, Hbd. auto 10.
    + apply String.eqb_neq in Hbc, Hbd. auto 10.
  - apply GetHAConfigMapName_empty.
  - intros He. rewrite (GetHAConfigMapName_enabled fc He).
    apply IsHighAvailabilityEnabled_true in He.
    destruct He as (props & t & c & d & Hp & _ & Hc & _).
    exists props, c. rewrite Hp. simpl. rewrite Hc. auto.
Qed.

(** C10. When high availability is enabled the config map name is the stored
    [kubernetes.cluster-id] value, as it is, followed by
    ["-cluster-config-map"]. With the value [" c1 "], which is not blank after
    trimming, high availability is enabled and the name is
    [" c1 -cluster-config-map"]: it is not the trimmed cluster id followed by
    the suffix. *)
Theorem GetHAConfigMapName_untrimmed :
  (forall fc, IsHighAvailabilityEnabled fc = true ->
     GetHAConfigMapName fc
     = mapIndex (FlinkProperties (Spec fc)) haConfigClusterId
       ++ "-cluster-config-map")
  /\ (exists fc,
        mapIndex (FlinkProperties (Spec fc)) haConfigClusterId = " c1 "
        /\ IsHighAvailabilityEnabled fc = true
        /\ GetHAConfigMapName fc = " c1 -cluster-config-map"
        /\ GetHAConfigMapName fc
           <> TrimSpace (mapIndex (FlinkProperties (Spec fc)) haConfigClusterId)
              ++ "-cluster-config-map").
Proof.
  split.
  - apply GetHAConfigMapName_enabled.
  - exists clusterSpacedId. repeat split; try (vm_compute; reflexivity).
    vm_compute. discriminate.
Qed.

(** ** The scenarios of the specification *)

(** Scenario B: a failed job with a final savepoint and the policy
    [FromSavepointOnFailure] is restarted. *)
Lemma ShouldRestart_scenario_B :
  IsFailed (Some jobFailedFinal) = true
  /\ ShouldRestart (specHasTimeElapsed scenarioClock)
       (Some jobFailedFinal) (Some specRestart) = Ok true.
Proof.
  split; [reflexivity|].
  destruct (ShouldRestart_spec (specHasTimeElapsed scenarioClock)
              (Some jobFailedFinal) (Some specRestart)) as (_ & Hfailed & _).
  destruct (Hfailed jobFailedFinal specRestart eq_refl eq_refl eq_refl)
    as [Hiff _].
  apply Hiff. split; reflexivity.
Defined.

(** A final savepoint is up to date with a nil spec at the zero time. *)
Lemma IsSavepointUpToDate_final_scenario :
  FinalSavepoint jobFailedFinal = true
  /\ IsSavepointUpToDate (specHasTimeElapsed scenarioClock)
       (Some jobFailedFinal) None zeroTime = Ok true.
Proof.
  split; [reflexivity|].
  apply (IsSavepointUpToDate_final (specHasTimeElapsed scenarioClock)
           jobFailedFinal None zeroTime).
  reflexivity.
Defined.

(** The staleness boundary for a savepoint taken at [t0] and a maximal age of
    60 seconds. *)
Lemma IsSavepointUpToDate_boundary_scenario :
  FinalSavepoint jobRunningSaved = false
  /\ IsSavepointUpToDate (specHasTimeElapsed scenarioClock)
       (Some jobRunningSaved) (Some specMaxAge60) (addSeconds t0 59) = Ok true
  /\ IsSavepointUpToDate (specHasTimeElapsed scenarioClock)
       (Some jobRunningSaved) (Some specMaxAge60) (addSeconds t0 60) = Ok false.
Proof.
  split; [reflexivity|].
  destruct (IsSavepointUpToDate_not_final scenarioClock jobRunningSaved
              specMaxAge60 (addSeconds t0 59) eq_refl) as [_ Hmeasured].
  assert (Hloc : SavepointLocation jobRunningSaved <> "") by discriminate.
  assert (Htime : SavepointTime jobRunningSaved <> "") by discriminate.
  destruct (Hmeasured 60 t0 eq_refl Hloc Htime eq_refl)
    as (_ & Hbefore & Hat).
  split; [apply Hbefore; reflexivity | exact Hat].
Defined.

(** Scenario D: a running job is ready for an update once its final savepoint
    is there; without [takeSavepointOnUpdate] a savepoint 59 seconds old is
    enough when 60 are allowed. *)
Lemma UpdateReady_scenario_D :
  UpdateReady (specHasTimeElapsed scenarioClock)
    (Some jobRunning) (Some specDefault) zeroTime = Ok false
  /\ UpdateReady (specHasTimeElapsed scenarioClock)
       (Some jobRunningFinal) (Some specDefault) zeroTime = Ok true
  /\ UpdateReady (specHasTimeElapsed scenarioClock)
       (Some jobRunningSaved) (Some specMaxAge60) (addSeconds t0 59) = Ok true.
Proof.
  split; [|split].
  - apply (proj1 (UpdateReady_active (specHasTimeElapsed scenarioClock)
                    jobRunning specDefault zeroTime eq_refl eq_refl)).
    right. reflexivity.
  - apply (proj1 (UpdateReady_active (specHasTimeElapsed scenarioClock)
                    jobRunningFinal specDefault zeroTime eq_refl eq_refl)).
    right. reflexivity.
  - rewrite (proj2 (UpdateReady_active (specHasTimeElapsed scenarioClock)
                      jobRunningSaved specMaxAge60 (addSeconds t0 59)
                      eq_refl eq_refl) eq_refl).
    reflexivity.
Defined.

(** A job in the middle of an update: ready at once without
    [takeSavepointOnUpdate], and not ready with it, as the job has neither a
    savepoint nor a completion time. *)
Lemma UpdateReady_updating_scenario :
  UpdateReady (specHasTimeElapsed scenarioClock)
    (Some jobUpdating) (Some specMaxAge60) zeroTime = Ok true
  /\ UpdateReady (specHasTimeElapsed scenarioClock)
       (Some jobUpdating) (Some specDefault) zeroTime = Ok false.
Proof.
  split.
  - apply (proj1 (UpdateReady_updating (specHasTimeElapsed scenarioClock)
                    jobUpdating specMaxAge60 zeroTime eq_refl eq_refl)).
    reflexivity.
  - rewrite (proj2 (UpdateReady_updating (specHasTimeElapsed scenarioClock)
                      jobUpdating specDefault zeroTime eq_refl eq_refl)
               (or_intror eq_refl)).
    reflexivity.
Defined.

Lemma Suspended_undefined : ~ List.In (State jobSuspendedFinal) definedJobStates.
Proof. unfold definedJobStates. simpl. intuition discriminate. Qed.

(** A state outside the ten with a final savepoint: the update is ready, where
    the claim C8 has it not ready. *)
Lemma undefined_state_ready_counterexample :
  ~ List.In (State jobSuspendedFinal) definedJobStates
  /\ UpdateReady (specHasTimeElapsed scenarioClock)
       (Some jobSuspendedFinal) (Some specDefault) zeroTime = Ok true
  /\ UpdateReady (specHasTimeElapsed scenarioClock)
       (Some jobSuspendedFinal) (Some specDefault) zeroTime <> Ok false.
Proof.
  split; [exact Suspended_undefined|].
  split; [reflexivity | discriminate].
Qed.

(** The outcomes on the state ["Suspended"]. *)
Lemma undefined_state_outcomes_scenario :
  IsStopped (Some jobSuspendedFinal) = false
  /\ ShouldRestart (specHasTimeElapsed scenarioClock)
       (Some jobSuspendedFinal) (Some specRestart) = Ok false
  /\ UpdateReady (specHasTimeElapsed scenarioClock)
       (Some jobSuspendedFinal) (Some specDefault) zeroTime = Ok true.
Proof.
  destruct (undefined_state_outcomes (specHasTimeElapsed scenarioClock)
              jobSuspendedFinal (Some specRestart) specDefault zeroTime
              Suspended_undefined)
    as ((_ & _ & _ & Hstopped) & Hrestart & _ & Hfinal).
  split; [exact Hstopped|]. split; [exact Hrestart|].
  apply Hfinal; reflexivity.
Defined.

(** The failed job of scenario B is in the class Failed only, and it is not
    terminated, as it is to be restarted. *)
Lemma classification_scenario :
  exactlyOne [IsActive (Some jobFailedFinal); IsPending (Some jobFailedFinal);
              IsFailed (Some jobFailedFinal);
              isSucceededOrCancelled (Some jobFailedFinal)]
  /\ IsStopped (Some jobFailedFinal) = true.
Proof.
  destruct (classification_exclusive (specHasTimeElapsed scenarioClock)
              (Some jobFailedFinal) (Some specDefault))
    as (Hdefined & Hterminated & _).
  split.
  - apply (Hdefined jobFailedFinal eq_refl).
    unfold definedJobStates. simpl. tauto.
  - apply Hterminated. reflexivity.
Defined.

(** An empty [high-availability] value: high availability is enabled, though
    one of the three values is blank. *)
Lemma blank_type_counterexample :
  mapLookup (<[haConfigType := ""]>
             (<[haConfigClusterId := "c1"]>
              (<[haConfigStorageDir := "s3://ha"]> ∅))) haConfigType = Some ""
  /\ IsHighAvailabilityEnabled clusterBlankType = true
  /\ specHAComplete clusterBlankType = false.
Proof. repeat split; vm_compute; reflexivity. Qed.

(** Scenario E. *)
Lemma IsHighAvailabilityEnabled_scenario_E :
  IsHighAvailabilityEnabled clusterE = true
  /\ GetHAConfigMapName clusterE <> "".
Proof.
  destruct (IsHighAvailabilityEnabled_spec clusterE) as (Hiff & Hname & _).
  assert (He : IsHighAvailabilityEnabled clusterE = true).
  { apply Hiff.
    exists (<[haConfigType := "zookeeper"]>
            (<[haConfigClusterId := "c1"]>
             (<[haConfigStorageDir := "s3://ha"]> ∅))),
      "zookeeper", "c1", "s3://ha".
    repeat split; try (vm_compute; reflexivity).
    vm_compute. discriminate. }
  split; [exact He|].
  intros Hempty. apply Hname in Hempty. rewrite He in Hempty. discriminate.
Defined.

(** The name keeps the spaces of the stored cluster id. *)
Lemma GetHAConfigMapName_spaced_scenario :
  IsHighAvailabilityEnabled clusterSpacedId = true
  /\ GetHAConfigMapName clusterSpacedId = " c1 -cluster-config-map".
Proof.
  assert (He : IsHighAvailabilityEnabled clusterSpacedId = true)
    by (vm_compute; reflexivity).
  split; [exact He|].
  rewrite (proj1 GetHAConfigMapName_untrimmed clusterSpacedId He).
  vm_compute. reflexivity.
Defined.

(** Scenario C: without a maximal age a savepoint that is not final does not
    allow a restart. *)
Example ShouldRestart_scenario_C :
  ShouldRestart (specHasTimeElapsed scenarioClock)
    (Some (mkJobStatus JobStateFailed "s3://x" "t0" false (Some t0)))
    (Some specRestart) = Ok false.
Proof. reflexivity. Qed.

(** The high-availability value ["NONE"] switches high availability off. *)
Example IsHighAvailabilityEnabled_NONE :
  IsHighAvailabilityEnabled
    (clusterOf (<[haConfigType := "NONE"]>
                (<[haConfigClusterId := "c1"]>
                 (<[haConfigStorageDir := "s3://ha"]> ∅)))) = false.
Proof. vm_compute. reflexivity. Qed.

(** Scenario E, evaluated. *)
Example GetHAConfigMapName_scenario_E :
  GetHAConfigMapName clusterE = "c1-cluster-config-map".
Proof. vm_compute. reflexivity. Qed.

(** ** Further facts on the gates *)

Section GateFacts.

Variable HasTimeElapsed : string -> Time -> Z -> result bool.

(** X1. When [IsSavepointUpToDate] answers true on a present spec: the savepoint
    is final, or the compare time is set, the maximal age is set, a savepoint
    is recorded and [HasTimeElapsed] answers false. *)
Theorem IsSavepointUpToDate_true_iff (js : JobStatus) (sp : JobSpec)
    (compareTime : Time) :
  IsSavepointUpToDate HasTimeElapsed (Some js) (Some sp) compareTime = Ok true
  <-> FinalSavepoint js = true
      \/ (IsZero compareTime = false
          /\ SavepointLocation js <> ""
          /\ SavepointTime js <> ""
          /\ exists stateMaxAge,
               MaxStateAgeToRestoreSeconds sp = Some stateMaxAge
               /\ HasTimeElapsed (SavepointTime js) compareTime stateMaxAge
                  = Ok false).
Proof.
  unfold IsSavepointUpToDate.
  destruct (FinalSavepoint js); [split; auto|].
  destruct (IsZero compareTime).
  { split; [discriminate|]. intros [|(Hz & _)]; discriminate. }
  destruct (MaxStateAgeToRestoreSeconds sp) as [n|].
  2:{ split; [discriminate|].
      intros [|(_ & _ & _ & n & Hn & _)]; discriminate. }
  destruct (String.eqb_spec (SavepointLocation js) "") as [Hl|Hl].
  { split; [discriminate|]. intros [|(_ & Hl' & _)]; [discriminate|].
    contradiction. }
  destruct (String.eqb_spec (SavepointTime js) "") as [Ht|Ht].
  { split; [discriminate|]. intros [|(_ & _ & Ht' & _)]; [discriminate|].
    contradiction. }
  split.
  - intros Hb. right. repeat split; try assumption. exists n. split; [reflexivity|].
    destruct (HasTimeElapsed (SavepointTime js) compareTime n) as [[|]|];
      cbv in Hb; congruence.
  - intros [|(_ & _ & _ & m & Hm & He)]; [discriminate|].
    injection Hm as <-. rewrite He. reflexivity.
Qed.

(** X2. On a nil spec [IsSavepointUpToDate] still answers for a final savepoint
    and for the zero compare time; in every other case it panics. *)
Theorem IsSavepointUpToDate_nil_spec (js : JobStatus) (compareTime : Time) :
  (IsSavepointUpToDate HasTimeElapsed (Some js) None compareTime = Panic
   <-> FinalSavepoint js = false /\ IsZero compareTime = false)
  /\ (IsSavepointUpToDate HasTimeElapsed (Some js) None compareTime = Ok true
      <-> FinalSavepoint js = true)
  /\ (IsSavepointUpToDate HasTimeElapsed (Some js) None compareTime = Ok false
      <-> FinalSavepoint js = false /\ IsZero compareTime = true).
Proof.
  unfold IsSavepointUpToDate.
  destruct (FinalSavepoint js), (IsZero compareTime);
    repeat split; try discriminate; try reflexivity;
    intros [? ?]; discriminate.
Qed.

(** X3. A restart needs a usable savepoint: a final one, or else a completion time
    that is set, a maximal age and a recorded savepoint. *)
Theorem ShouldRestart_needs_savepoint (j : option JobStatus)
    (spec : option JobSpec) :
  ShouldRestart HasTimeElapsed j spec = Ok true ->
  exists js sp,
    j = Some js /\ spec = Some sp
    /\ RestartPolicy sp = Some JobRestartPolicyFromSavepointOnFailure
    /\ (FinalSavepoint js = true
        \/ (exists t stateMaxAge,
              CompletionTime js = Some t
              /\ IsZero t = false
              /\ MaxStateAgeToRestoreSeconds sp = Some stateMaxAge
              /\ SavepointLocation js <> ""
              /\ SavepointTime js <> ""
              /\ HasTimeElapsed (SavepointTime js) t stateMaxAge = Ok false)).
Proof.
  intros Hr. destruct j as [js|]; [|discriminate].
  destruct (IsFailed (Some js)) eqn:Hf.
  2:{ unfold ShouldRestart in Hr. rewrite Hf in Hr. discriminate. }
  destruct spec as [sp|].
  2:{ unfold ShouldRestart in Hr. rewrite Hf in Hr. discriminate. }
  rewrite (ShouldRestart_failed _ js sp Hf) in Hr.
  apply andThen_true in Hr. destruct Hr as [Hp Hu].
  apply restartEnabled_true in Hp.
  apply IsSavepointUpToDate_true_iff in Hu.
  exists js, sp. repeat split; try assumption.
  destruct Hu as [Hfin | (Hz & Hl & Ht & n & Hn & He)]; [left; assumption|].
  right. destruct (CompletionTime js) as [t|]; [|discriminate].
  exists t, n. auto 10.
Qed.

(** X4. [IsTerminated] by the class of the status: false on a status that is not
    stopped, the nil status included; true on a succeeded or cancelled job
    for every spec; on a failed job the negation of [ShouldRestart]. *)
Theorem IsTerminated_by_class (j : option JobStatus) (spec : option JobSpec) :
  (IsStopped j = false -> IsTerminated HasTimeElapsed j spec = Ok false)
  /\ (isSucceededOrCancelled j = true ->
      IsTerminated HasTimeElapsed j spec = Ok true)
  /\ (IsFailed j = true ->
      IsTerminated HasTimeElapsed j spec
      = (restart ← ShouldRestart HasTimeElapsed j spec; mret (negb restart))).
Proof.
  unfold IsTerminated. rewrite IsStopped_split. split; [|split].
  - intros ->. reflexivity.
  - intros Hs. rewrite Hs. simpl.
    destruct j as [js|]; [|discriminate].
    assert (Hf : IsFailed (Some js) = false).
    { unfold isSucceededOrCancelled in Hs. unfold IsFailed, stateIs in *.
      apply orb_true_iff in Hs.
      destruct Hs as [Hs | Hs]; apply String.eqb_eq in Hs; rewrite Hs;
        reflexivity. }
    unfold ShouldRestart. rewrite Hf. reflexivity.
  - intros ->. rewrite orb_true_r. reflexivity.
Qed.

(** X5. A job is never both terminated and to be restarted. *)
Theorem IsTerminated_excludes_restart (j : option JobStatus)
    (spec : option JobSpec) :
  (IsTerminated HasTimeElapsed j spec = Ok true ->
   ShouldRestart HasTimeElapsed j spec = Ok false)
  /\ (ShouldRestart HasTimeElapsed j spec = Ok true ->
      IsTerminated HasTimeElapsed j spec = Ok false).
Proof.
  unfold IsTerminated. split.
  - intros Ht. apply andThen_true in Ht. destruct Ht as [_ Ht].
    destruct (ShouldRestart HasTimeElapsed j spec) as [[|]|];
      cbv in Ht; congruence.
  - intros ->. destruct (IsStopped j); reflexivity.
Qed.

Lemma IsFailed_not_active (js : JobStatus) :
  IsFailed (Some js) = true ->
  IsActive (Some js) = false /\ stateIs js JobStateUpdating = false.
Proof.
  unfold IsFailed, IsActive, stateIs. intros Hf.
  apply orb_true_iff in Hf. destruct Hf as [Hf | Hf];
    [apply orb_true_iff in Hf; destruct Hf as [Hf | Hf]|];
    apply String.eqb_eq in Hf; rewrite Hf; split; reflexivity.
Qed.

(** X6. The update gate is open without a look at the job when there is no status
    or when the spec names a savepoint to start from. *)
Theorem UpdateReady_bypass (j : option JobStatus) (sp : JobSpec)
    (observeTime : Time) :
  j = None \/ isBlank (FromSavepoint sp) = false ->
  UpdateReady HasTimeElapsed j (Some sp) observeTime = Ok true.
Proof.
  intros [-> | Hb]; [reflexivity|].
  unfold UpdateReady. destruct j; [|reflexivity]. rewrite Hb. reflexivity.
Qed.

(** X7. A final savepoint opens the update gate in every state, at every observe
    time and under every setting of the spec. *)
Theorem UpdateReady_final (js : JobStatus) (sp : JobSpec) (observeTime : Time) :
  FinalSavepoint js = true ->
  UpdateReady HasTimeElapsed (Some js) (Some sp) observeTime = Ok true.
Proof.
  intros Hfin. unfold UpdateReady, IsSavepointUpToDate. rewrite Hfin.
  destruct (negb (isBlank (FromSavepoint sp))); [reflexivity|].
  destruct (IsActive (Some js)).
  - destruct (TakeSavepointOnUpdate sp) as [[|]|]; reflexivity.
  - destruct (stateIs js JobStateUpdating && _); reflexivity.
Qed.

(** X8. The observe time is read only for an Active job whose spec switches
    [takeSavepointOnUpdate] off: in every other case the answer of
    [UpdateReady] does not depend on it. *)
Theorem UpdateReady_observeTime (j : option JobStatus) (spec : option JobSpec)
    (t1 t2 : Time) :
  IsActive j = false
  \/ (forall sp, spec = Some sp -> TakeSavepointOnUpdate sp <> Some false) ->
  UpdateReady HasTimeElapsed j spec t1 = UpdateReady HasTimeElapsed j spec t2.
Proof.
  intros Hc. unfold UpdateReady.
  destruct spec as [sp|]; [|reflexivity].
  destruct j as [js|]; [|reflexivity].
  destruct (negb (isBlank (FromSavepoint sp))); [reflexivity|].
  destruct (IsActive (Some js)) eqn:Ha; [|reflexivity].
  destruct Hc as [Hc | Hc]; [discriminate|].
  specialize (Hc sp eq_refl).
  destruct (TakeSavepointOnUpdate sp) as [[|]|]; [reflexivity | | reflexivity].
  contradiction.
Qed.

(** X9. A job that is to be restarted is ready for an update; on a failed job with
    the policy [FromSavepointOnFailure] and a blank [fromSavepoint] the two
    gates give the same answer. *)
Theorem ShouldRestart_UpdateReady (j : option JobStatus) (sp : JobSpec)
    (observeTime : Time) :
  (ShouldRestart HasTimeElapsed j (Some sp) = Ok true ->
   UpdateReady HasTimeElapsed j (Some sp) observeTime = Ok true)
  /\ (IsFailed j = true ->
      RestartPolicy sp = Some JobRestartPolicyFromSavepointOnFailure ->
      isBlank (FromSavepoint sp) = true ->
      UpdateReady HasTimeElapsed j (Some sp) observeTime
      = ShouldRestart HasTimeElapsed j (Some sp)).
Proof.
  assert (Hsame : forall js,
    IsFailed (Some js) = true ->
    isBlank (FromSavepoint sp) = true ->
    UpdateReady HasTimeElapsed (Some js) (Some sp) observeTime
    = IsSavepointUpToDate HasTimeElapsed (Some js) (Some sp)
        (default zeroTime (CompletionTime js))).
  { intros js Hf Hb. destruct (IsFailed_not_active js Hf) as [Ha Hu].
    apply UpdateReady_default; [assumption | assumption |].
    rewrite Hu. reflexivity. }
  split.
  - intros Hr. destruct j as [js|]; [|reflexivity].
    destruct (IsFailed (Some js)) eqn:Hf.
    2:{ unfold ShouldRestart in Hr. rewrite Hf in Hr. discriminate. }
    rewrite (ShouldRestart_failed _ js sp Hf) in Hr.
    apply andThen_true in Hr. destruct Hr as [_ Hu].
    destruct (isBlank (FromSavepoint sp)) eqn:Hb.
    + rewrite (Hsame js Hf eq_refl). exact Hu.
    + unfold UpdateReady. rewrite Hb. reflexivity.
  - intros Hf Hp Hb. destruct j as [js|]; [|discriminate].
    rewrite (Hsame js Hf Hb), (ShouldRestart_failed _ js sp Hf).
    apply restartEnabled_true in Hp. rewrite Hp. reflexivity.
Qed.

Lemma IsSavepointUpToDate_no_panic (js : JobStatus) (sp : JobSpec)
    (compareTime : Time) :
  (forall s t n, HasTimeElapsed s t n <> Panic) ->
  IsSavepointUpToDate HasTimeElapsed (Some js) (Some sp) compareTime <> Panic.
Proof.
  intros Htotal. unfold IsSavepointUpToDate.
  destruct (FinalSavepoint js); [discriminate|].
  destruct (IsZero compareTime); [discriminate|].
  destruct (MaxStateAgeToRestoreSeconds sp) as [n|]; [|discriminate].
  destruct (String.eqb (SavepointLocation js) ""); [discriminate|].
  destruct (String.eqb (SavepointTime js) ""); [discriminate|].
  specialize (Htotal (SavepointTime js) compareTime n).
  destruct (HasTimeElapsed (SavepointTime js) compareTime n);
    [discriminate | contradiction].
Qed.

(** X10. Where the gates can panic. When [HasTimeElapsed] has a value on every
    input, [ShouldRestart] and [IsTerminated] have a value for every status
    and spec, nil or not, and [UpdateReady] panics exactly on a nil spec. *)
Theorem gates_panic (j : option JobStatus) (spec : option JobSpec)
    (observeTime : Time) :
  (forall s t n, HasTimeElapsed s t n <> Panic) ->
  ShouldRestart HasTimeElapsed j spec <> Panic
  /\ IsTerminated HasTimeElapsed j spec <> Panic
  /\ (UpdateReady HasTimeElapsed j spec observeTime = Panic <-> spec = None).
Proof.
  intros Htotal.
  assert (Hr : ShouldRestart HasTimeElapsed j spec <> Panic).
  { unfold ShouldRestart. destruct j as [js|]; [|discriminate].
    destruct (negb (IsFailed (Some js))); [discriminate|].
    destruct spec as [sp|]; [|discriminate].
    destruct (RestartPolicy sp) as [p|]; [|discriminate].
    destruct (String.eqb p JobRestartPolicyFromSavepointOnFailure);
      [|discriminate].
    apply IsSavepointUpToDate_no_panic, Htotal. }
  split; [exact Hr|]. split.
  - unfold IsTerminated. destruct (IsStopped j); [|discriminate].
    simpl. destruct (ShouldRestart HasTimeElapsed j spec);
      [discriminate | contradiction].
  - destruct spec as [sp|]; [|split; reflexivity].
    split; [|discriminate]. intros Hp. exfalso. revert Hp.
    unfold UpdateReady. destruct j as [js|]; [|discriminate].
    destruct (negb (isBlank (FromSavepoint sp))); [discriminate|].
    destruct (IsActive (Some js)).
    + destruct (TakeSavepointOnUpdate sp) as [[|]|];
        try (destruct (FinalSavepoint js); discriminate).
      rewrite bind_bool_eta. apply IsSavepointUpToDate_no_panic, Htotal.
    + destruct (stateIs js JobStateUpdating && _); [discriminate|].
      rewrite bind_bool_eta. apply IsSavepointUpToDate_no_panic, Htotal.
Qed.

(** X11. A job that is not Active and has no completion time, with a blank
    [fromSavepoint], is ready for an update exactly when its savepoint is
    final; the only exception is the Updating job of a spec that switches
    [takeSavepointOnUpdate] off. [HasTimeElapsed] is not called. *)
Theorem UpdateReady_without_completion (js : JobStatus) (sp : JobSpec)
    (observeTime : Time) :
  IsActive (Some js) = false ->
  isBlank (FromSavepoint sp) = true ->
  metaIsZero (CompletionTime js) = true ->
  (State js = JobStateUpdating -> TakeSavepointOnUpdate sp <> Some false) ->
  UpdateReady HasTimeElapsed (Some js) (Some sp) observeTime
  = Ok (FinalSavepoint js).
Proof.
  intros Ha Hb Hz Hu.
  rewrite UpdateReady_default; [| assumption | assumption |].
  - unfold IsSavepointUpToDate. destruct (FinalSavepoint js); [reflexivity|].
    replace (IsZero (default zeroTime (CompletionTime js))) with true;
      [reflexivity|].
    destruct (CompletionTime js) as [t|];
      [symmetry; exact Hz | reflexivity].
  - destruct (stateIs js JobStateUpdating) eqn:Hs; [|reflexivity].
    apply stateIs_true in Hs. specialize (Hu Hs).
    destruct (TakeSavepointOnUpdate sp) as [[|]|]; try reflexivity.
    contradiction.
Qed.

End GateFacts.

(** ** The classes cover the ten states, and nothing else *)

(** X12. A present status is Active, Pending or Stopped if and only if its state is
    one of the ten defined ones. *)
Theorem classes_cover_defined (js : JobStatus) :
  IsActive (Some js) || IsPending (Some js) || IsStopped (Some js) = true
  <-> List.In (State js) definedJobStates.
Proof.
  split.
  - unfold IsStopped, IsFailed, IsPending, IsActive, stateIs.
    rewrite !orb_true_iff, !String.eqb_eq.
    unfold definedJobStates. simpl. intuition auto.
  - intros Hin. pose proof (classifier_partition js Hin) as Hone.
    rewrite IsStopped_split. unfold exactlyOne in Hone.
    destruct (IsActive (Some js)), (IsPending (Some js)), (IsFailed (Some js)),
      (isSucceededOrCancelled (Some js)); simpl in *; congruence.
Qed.

(** ** Blank strings *)

Lemma isASCIISpace_invisible (c : ascii) :
  isASCIISpace c = true -> isVisibleASCII c = false.
Proof. unfold isVisibleASCII. intros ->. apply andb_false_r. Qed.

Lemma byteIs_invisible (c : ascii) (n : N) :
  (128 <= n)%N -> byteIs c n = true -> isVisibleASCII c = false.
Proof.
  unfold byteIs, isVisibleASCII. intros Hn Hc. apply N.eqb_eq in Hc.
  rewrite Hc. replace (n <? 128)%N with false; [reflexivity|].
  symmetry. apply N.ltb_ge. exact Hn.
Qed.

Lemma isSpace2_invisible (c1 c2 : ascii) :
  isSpace2 c1 c2 = true ->
  isVisibleASCII c1 = false /\ isVisibleASCII c2 = false.
Proof.
  unfold isSpace2. rewrite andb_true_iff, orb_true_iff.
  intros [H1 [H2 | H2]]; split;
    eapply byteIs_invisible; try eassumption; lia.
Qed.

Lemma high_byte_invisible (c : ascii) :
  (128 <=? N_of_ascii c)%N = true -> isVisibleASCII c = false.
Proof.
  unfold isVisibleASCII. intros Hc. apply N.leb_le in Hc.
  replace (N_of_ascii c <? 128)%N with false; [reflexivity|].
  symmetry. apply N.ltb_ge. exact Hc.
Qed.

Lemma isSpace3_invisible (c1 c2 c3 : ascii) :
  isSpace3 c1 c2 c3 = true ->
  isVisibleASCII c1 = false /\ isVisibleASCII c2 = false
  /\ isVisibleASCII c3 = false.
Proof.
  unfold isSpace3.
  repeat (rewrite orb_true_iff || rewrite andb_true_iff).
  intros H.
  repeat match goal with
         | H : _ \/ _ |- _ => destruct H
         | H : _ /\ _ |- _ => destruct H
         end;
    repeat split;
    first [ eapply byteIs_invisible; [|eassumption]; lia
          | apply high_byte_invisible; assumption ].
Qed.

(** One round of the scan of [trimLeftSpace] or [trimLeftSpaceRev]: what is cut
    off holds no visible ASCII byte. *)
Ltac trim_keeps_visible IH Hlen Hv :=
  pose proof Hv as Hv0; simpl in Hv; simpl in Hlen;
  match goal with
  | |- context [isASCIISpace ?c1] =>
    let E := fresh "E" in
    destruct (isASCIISpace c1) eqn:E;
    [ rewrite (isASCIISpace_invisible _ E) in Hv; apply IH; [lia | exact Hv]
    | ]
  end;
  match goal with
  | |- context [match ?r1 with EmptyString => _ | String _ _ => _ end] =>
    destruct r1 as [|c2 r2]; [exact Hv0|]
  end;
  simpl in Hv; simpl in Hlen;
  match goal with
  | |- context [isSpace2 ?a ?b] =>
    let E := fresh "E" in
    destruct (isSpace2 a b) eqn:E;
    [ destruct (isSpace2_invisible _ _ E) as [V1 V2];
      rewrite V1, V2 in Hv; apply IH; [lia | exact Hv]
    | ]
  end;
  match goal with
  | |- context [match ?r2 with EmptyString => _ | String _ _ => _ end] =>
    destruct r2 as [|c3 r3]; [exact Hv0|]
  end;
  simpl in Hv; simpl in Hlen;
  match goal with
  | |- context [isSpace3 ?a ?b ?c] =>
    let E := fresh "E" in
    destruct (isSpace3 a b c) eqn:E;
    [ destruct (isSpace3_invisible _ _ _ E) as (V1 & V2 & V3);
      rewrite V1, V2, V3 in Hv; apply IH; [lia | exact Hv]
    | exact Hv0 ]
  end.

Lemma trimLeftSpace_visible (n : nat) (s : string) :
  (String.length s <= n)%nat ->
  someByte isVisibleASCII s = true ->
  someByte isVisibleASCII (trimLeftSpace s) = true.
Proof.
  revert s. induction n as [|n IH]; intros s Hlen Hv.
  - destruct s; [discriminate | simpl in Hlen; lia].
  - destruct s as [|c1 r1]; [discriminate|].
    simpl trimLeftSpace. trim_keeps_visible IH Hlen Hv.
Qed.

Lemma trimLeftSpaceRev_visible (n : nat) (s : string) :
  (String.length s <= n)%nat ->
  someByte isVisibleASCII s = true ->
  someByte isVisibleASCII (trimLeftSpaceRev s) = true.
Proof.
  revert s. induction n as [|n IH]; intros s Hlen Hv.
  - destruct s; [discriminate | simpl in Hlen; lia].
  - destruct s as [|c1 r1]; [discriminate|].
    simpl trimLeftSpaceRev. trim_keeps_visible IH Hlen Hv.
Qed.

Lemma someByte_rev_app (p : ascii -> bool) (s acc : string) :
  someByte p (String.rev_app s acc) = someByte p s || someByte p acc.
Proof.
  revert acc. induction s as [|c r IH]; intros acc; simpl.
  - reflexivity.
  - rewrite IH. simpl. destruct (p c), (someByte p r); reflexivity.
Qed.

Lemma someByte_rev (p : ascii -> bool) (s : string) :
  someByte p (String.rev s) = someByte p s.
Proof. unfold String.rev. rewrite someByte_rev_app. apply orb_false_r. Qed.

Lemma TrimSpace_visible (s : string) :
  someByte isVisibleASCII s = true ->
  someByte isVisibleASCII (TrimSpace s) = true.
Proof.
  intros Hv. unfold TrimSpace, trimRightSpace. rewrite someByte_rev.
  apply (trimLeftSpaceRev_visible _ _ (le_n _)). rewrite someByte_rev.
  apply (trimLeftSpace_visible _ _ (le_n _)). exact Hv.
Qed.

Lemma trimLeftSpace_spaces (s : string) :
  allBytes isASCIISpace s = true -> trimLeftSpace s = "".
Proof.
  induction s as [|c r IH]; simpl; [reflexivity|].
  intros Ha. apply andb_true_iff in Ha. destruct Ha as [Hc Hr].
  rewrite Hc. apply IH, Hr.
Qed.

Lemma TrimSpace_visible_nonempty (s : string) :
  someByte isVisibleASCII s = true -> String.eqb (TrimSpace s) "" = false.
Proof.
  intros Hv. apply String.eqb_neq. intros He.
  apply TrimSpace_visible in Hv. rewrite He in Hv. discriminate.
Qed.

(** X13. [isBlank] holds of the nil string and of a string of ASCII white space,
    the empty string among them; it fails on every string that holds a visible
    ASCII byte, wherever that byte stands. *)
Theorem isBlank_cases (s : string) :
  isBlank None = true
  /\ (allBytes isASCIISpace s = true -> isBlank (Some s) = true)
  /\ (someByte isVisibleASCII s = true -> isBlank (Some s) = false).
Proof.
  split; [reflexivity|]. split.
  - intros Ha. unfold isBlank, TrimSpace.
    rewrite (trimLeftSpace_spaces s Ha). reflexivity.
  - apply TrimSpace_visible_nonempty.
Qed.

(** ** Further facts on the high-availability properties *)

(** X14. A key other than the three that are read changes neither answer, whether
    it is set or removed. *)
Theorem high_availability_other_key (props : gmap string string)
    (k v : string) :
  k <> haConfigType -> k <> haConfigClusterId -> k <> haConfigStorageDir ->
  IsHighAvailabilityEnabled (clusterOf (<[k := v]> props))
  = IsHighAvailabilityEnabled (clusterOf props)
  /\ GetHAConfigMapName (clusterOf (<[k := v]> props))
     = GetHAConfigMapName (clusterOf props)
  /\ IsHighAvailabilityEnabled (clusterOf (delete k props))
     = IsHighAvailabilityEnabled (clusterOf props)
  /\ GetHAConfigMapName (clusterOf (delete k props))
     = GetHAConfigMapName (clusterOf props).
Proof.
  intros Ht Hc Hd.
  unfold GetHAConfigMapName, IsHighAvailabilityEnabled, clusterOf, mapIndex,
    mapLookup.
  simpl. rewrite !lookup_insert_ne, !lookup_delete_ne by assumption.
  repeat split.
Qed.

(** X15. Without one of the three keys high availability is off and the config map
    name is empty; so it is on a nil map and on an empty map. *)
Theorem high_availability_missing_key (fc : FlinkCluster) :
  FlinkProperties (Spec fc) = None
  \/ (exists props k,
        FlinkProperties (Spec fc) = Some props
        /\ (k = haConfigType \/ k = haConfigClusterId
            \/ k = haConfigStorageDir)
        /\ mapLookup props k = None) ->
  IsHighAvailabilityEnabled fc = false /\ GetHAConfigMapName fc = "".
Proof.
  intros Hm.
  assert (He : IsHighAvailabilityEnabled fc = false).
  { apply not_true_is_false. intros He.
    apply IsHighAvailabilityEnabled_true in He.
    destruct He as (props & t & c & d & Hp & Ht & Hc & Hd & _).
    destruct Hm as [Hm | (props' & k & Hp' & Hk & Hnone)]; [congruence|].
    rewrite Hp in Hp'. injection Hp' as <-.
    destruct Hk as [-> | [-> | ->]]; congruence. }
  split; [exact He|]. apply GetHAConfigMapName_empty, He.
Qed.

Lemma length_append (s t : string) :
  String.length (s ++ t) = (String.length s + String.length t)%nat.
Proof. induction s as [|c r IH]; simpl; [reflexivity | now rewrite IH]. Qed.

Lemma append_inv_tail (s1 s2 t : string) : s1 ++ t = s2 ++ t -> s1 = s2.
Proof.
  revert s2. induction s1 as [|c r IH]; intros [|c' r'] He; simpl in He.
  - reflexivity.
  - apply (f_equal String.length) in He.
    rewrite !length_append in He. simpl in He. lia.
  - apply (f_equal String.length) in He.
    rewrite !length_append in He. simpl in He. lia.
  - injection He as -> He. f_equal. apply IH, He.
Qed.

(** X16. Two clusters with high availability enabled get the same config map name
    only when they store the same cluster id. *)
Theorem GetHAConfigMapName_injective (fc1 fc2 : FlinkCluster) :
  IsHighAvailabilityEnabled fc1 = true ->
  IsHighAvailabilityEnabled fc2 = true ->
  GetHAConfigMapName fc1 = GetHAConfigMapName fc2 ->
  mapIndex (FlinkProperties (Spec fc1)) haConfigClusterId
  = mapIndex (FlinkProperties (Spec fc2)) haConfigClusterId.
Proof.
  intros H1 H2. rewrite (GetHAConfigMapName_enabled fc1 H1).
  rewrite (GetHAConfigMapName_enabled fc2 H2). apply append_inv_tail.
Qed.

Lemma lowerByte_letter (c : ascii) :
  (lowerByte c = "n"%char -> c = "n"%char \/ c = "N"%char)
  /\ (lowerByte c = "o"%char -> c = "o"%char \/ c = "O"%char)
  /\ (lowerByte c = "e"%char -> c = "e"%char \/ c = "E"%char).
Proof.
  destruct c as [[|] [|] [|] [|] [|] [|] [|] [|]]; vm_compute;
    repeat split; intros H; first [discriminate H | auto].
Qed.

Lemma ToLower_none (t : string) :
  ToLower t = "none" <-> List.In t noneSpellings.
Proof.
  split.
  - destruct t as [|c1 [|c2 [|c3 [|c4 [|c5 r]]]]]; simpl; try discriminate.
    intros He. injection He as H1 H2 H3 H4.
    apply (proj1 (lowerByte_letter c1)) in H1.
    apply (proj1 (proj2 (lowerByte_letter c2))) in H2.
    apply (proj1 (lowerByte_letter c3)) in H3.
    apply (proj2 (proj2 (lowerByte_letter c4))) in H4.
    destruct H1 as [-> | ->], H2 as [-> | ->], H3 as [-> | ->],
      H4 as [-> | ->]; tauto.
  - unfold noneSpellings. simpl. intros Hin.
    repeat (destruct Hin as [<- | Hin]; [reflexivity|]). contradiction.
Qed.

(** X17. With a cluster id and a storage directory that hold a visible ASCII byte,
    high availability is off exactly for the sixteen upper and lower case
    spellings of ["none"] as the [high-availability] value: every other value,
    the empty one included, switches it on. *)
Theorem high_availability_off_values (props : gmap string string)
    (t c d : string) :
  mapLookup props haConfigType = Some t ->
  mapLookup props haConfigClusterId = Some c ->
  mapLookup props haConfigStorageDir = Some d ->
  someByte isVisibleASCII c = true ->
  someByte isVisibleASCII d = true ->
  (IsHighAvailabilityEnabled (clusterOf props) = false
   <-> List.In t noneSpellings).
Proof.
  intros Ht Hc Hd Vc Vd.
  pose proof (TrimSpace_visible_nonempty c Vc) as Bc.
  pose proof (TrimSpace_visible_nonempty d Vd) as Bd.
  rewrite <- ToLower_none.
  unfold IsHighAvailabilityEnabled, clusterOf. simpl.
  rewrite Ht, Hc, Hd, Bc, Bd.
  destruct (String.eqb_spec (ToLower t) "none"); split; congruence.
Qed.

(** ** The further facts on concrete jobs and clusters *)

Lemma IsSavepointUpToDate_true_iff_example :
  IsSavepointUpToDate (specHasTimeElapsed scenarioClock)
    (Some jobFailedSaved) (Some specRestartMaxAge60) (addSeconds t0 30)
  = Ok true.
Proof.
  apply (proj2 (IsSavepointUpToDate_true_iff (specHasTimeElapsed scenarioClock)
                  jobFailedSaved specRestartMaxAge60 (addSeconds t0 30))).
  right. split; [reflexivity|]. split; [discriminate|].
  split; [discriminate|]. exists 60. split; reflexivity.
Defined.

Lemma IsSavepointUpToDate_nil_spec_example :
  IsSavepointUpToDate (specHasTimeElapsed scenarioClock)
    (Some jobRunningSaved) None t0 = Panic
  /\ IsSavepointUpToDate (specHasTimeElapsed scenarioClock)
       (Some jobRunningSaved) None zeroTime = Ok false.
Proof.
  split.
  - apply (proj2 (proj1 (IsSavepointUpToDate_nil_spec
                           (specHasTimeElapsed scenarioClock)
                           jobRunningSaved t0))).
    split; reflexivity.
  - apply (proj2 (proj2 (proj2 (IsSavepointUpToDate_nil_spec
                                  (specHasTimeElapsed scenarioClock)
                                  jobRunningSaved zeroTime)))).
    split; reflexivity.
Defined.

Lemma ShouldRestart_needs_savepoint_example :
  ShouldRestart (specHasTimeElapsed scenarioClock)
    (Some jobFailedSaved) (Some specRestartMaxAge60) = Ok true
  /\ exists js sp,
       Some jobFailedSaved = Some js /\ Some specRestartMaxAge60 = Some sp
       /\ RestartPolicy sp = Some JobRestartPolicyFromSavepointOnFailure
       /\ (FinalSavepoint js = true
           \/ (exists t stateMaxAge,
                 CompletionTime js = Some t
                 /\ IsZero t = false
                 /\ MaxStateAgeToRestoreSeconds sp = Some stateMaxAge
                 /\ SavepointLocation js <> ""
                 /\ SavepointTime js <> ""
                 /\ specHasTimeElapsed scenarioClock (SavepointTime js) t
                      stateMaxAge = Ok false)).
Proof.
  split; [reflexivity|].
  apply (ShouldRestart_needs_savepoint (specHasTimeElapsed scenarioClock)
           (Some jobFailedSaved) (Some specRestartMaxAge60)).
  reflexivity.
Defined.

Lemma IsTerminated_by_class_example :
  isSucceededOrCancelled (Some jobSucceeded) = true
  /\ IsTerminated (specHasTimeElapsed scenarioClock) (Some jobSucceeded) None
     = Ok true
  /\ IsTerminated (specHasTimeElapsed scenarioClock) (Some jobRunning)
       (Some specRestart) = Ok false.
Proof.
  split; [reflexivity|]. split.
  - apply (proj1 (proj2 (IsTerminated_by_class
                           (specHasTimeElapsed scenarioClock)
                           (Some jobSucceeded) None))).
    reflexivity.
  - apply (proj1 (IsTerminated_by_class (specHasTimeElapsed scenarioClock)
                    (Some jobRunning) (Some specRestart))).
    reflexivity.
Defined.

Lemma IsTerminated_excludes_restart_example :
  ShouldRestart (specHasTimeElapsed scenarioClock)
    (Some jobFailedSaved) (Some specRestartMaxAge60) = Ok true
  /\ IsTerminated (specHasTimeElapsed scenarioClock)
       (Some jobFailedSaved) (Some specRestartMaxAge60) = Ok false.
Proof.
  split; [reflexivity|].
  apply (proj2 (IsTerminated_excludes_restart
                  (specHasTimeElapsed scenarioClock)
                  (Some jobFailedSaved) (Some specRestartMaxAge60))).
  reflexivity.
Defined.

Lemma UpdateReady_bypass_example :
  isBlank (FromSavepoint specFromSavepoint) = false
  /\ UpdateReady (specHasTimeElapsed scenarioClock)
       (Some jobRunning) (Some specFromSavepoint) zeroTime = Ok true.
Proof.
  split; [vm_compute; reflexivity|].
  apply (UpdateReady_bypass (specHasTimeElapsed scenarioClock)
           (Some jobRunning) specFromSavepoint zeroTime).
  right. vm_compute. reflexivity.
Defined.

Lemma UpdateReady_final_example :
  FinalSavepoint jobRunningFinal = true
  /\ UpdateReady (specHasTimeElapsed scenarioClock)
       (Some jobRunningFinal) (Some specMaxAge60) zeroTime = Ok true.
Proof.
  split; [reflexivity|].
  apply (UpdateReady_final (specHasTimeElapsed scenarioClock)
           jobRunningFinal specMaxAge60 zeroTime).
  reflexivity.
Defined.

Lemma UpdateReady_observeTime_example :
  IsActive (Some jobSucceeded) = false
  /\ UpdateReady (specHasTimeElapsed scenarioClock)
       (Some jobSucceeded) (Some specMaxAge60) zeroTime
     = UpdateReady (specHasTimeElapsed scenarioClock)
         (Some jobSucceeded) (Some specMaxAge60) t0.
Proof.
  split; [reflexivity|].
  apply (UpdateReady_observeTime (specHasTimeElapsed scenarioClock)
           (Some jobSucceeded) (Some specMaxAge60) zeroTime t0).
  left. reflexivity.
Defined.

Lemma ShouldRestart_UpdateReady_example :
  ShouldRestart (specHasTimeElapsed scenarioClock)
    (Some jobFailedSaved) (Some specRestartMaxAge60) = Ok true
  /\ UpdateReady (specHasTimeElapsed scenarioClock)
       (Some jobFailedSaved) (Some specRestartMaxAge60) zeroTime = Ok true.
Proof.
  split; [reflexivity|].
  apply (proj1 (ShouldRestart_UpdateReady (specHasTimeElapsed scenarioClock)
                  (Some jobFailedSaved) specRestartMaxAge60 zeroTime)).
  reflexivity.
Defined.

Lemma gates_panic_example :
  (forall s t n, specHasTimeElapsed steadyClock s t n <> Panic)
  /\ ShouldRestart (specHasTimeElapsed steadyClock)
       (Some jobFailedSaved) (Some specRestartMaxAge60) <> Panic
  /\ UpdateReady (specHasTimeElapsed steadyClock)
       (Some jobFailedSaved) None t0 = Panic.
Proof.
  assert (Htotal : forall s t n, specHasTimeElapsed steadyClock s t n <> Panic).
  { intros s t n. unfold specHasTimeElapsed, steadyClock. discriminate. }
  split; [exact Htotal|]. split.
  - exact (proj1 (gates_panic (specHasTimeElapsed steadyClock)
                    (Some jobFailedSaved) (Some specRestartMaxAge60) t0
                    Htotal)).
  - apply (proj2 (proj2 (gates_panic (specHasTimeElapsed steadyClock)
                           (Some jobFailedSaved) None t0 Htotal))).
    reflexivity.
Defined.

Lemma UpdateReady_without_completion_example :
  metaIsZero (CompletionTime jobUpdating) = true
  /\ UpdateReady (specHasTimeElapsed scenarioClock)
       (Some jobUpdating) (Some specDefault) t0 = Ok false.
Proof.
  split; [reflexivity|].
  apply (UpdateReady_without_completion (specHasTimeElapsed scenarioClock)
           jobUpdating specDefault t0); try reflexivity.
  intros _. discriminate.
Defined.

Lemma classes_cover_defined_example :
  IsActive (Some jobFailedFinal) || IsPending (Some jobFailedFinal)
  || IsStopped (Some jobFailedFinal) = true.
Proof.
  apply (proj2 (classes_cover_defined jobFailedFinal)).
  unfold definedJobStates. simpl. tauto.
Defined.

Lemma isBlank_cases_example :
  isBlank (Some "   ") = true /\ isBlank (Some " s3://x ") = false.
Proof.
  split.
  - apply (proj1 (proj2 (isBlank_cases "   "))). reflexivity.
  - apply (proj2 (proj2 (isBlank_cases " s3://x "))). reflexivity.
Defined.

Lemma high_availability_other_key_example :
  IsHighAvailabilityEnabled
    (clusterOf (<["taskmanager.numberOfTaskSlots" := "2"]> propsE))
  = IsHighAvailabilityEnabled (clusterOf propsE).
Proof.
  apply (high_availability_other_key propsE
           "taskmanager.numberOfTaskSlots" "2"); discriminate.
Defined.

Lemma high_availability_missing_key_example :
  mapLookup (delete haConfigStorageDir propsE) haConfigStorageDir = None
  /\ IsHighAvailabilityEnabled
       (clusterOf (delete haConfigStorageDir propsE)) = false
  /\ GetHAConfigMapName (clusterOf (delete haConfigStorageDir propsE)) = "".
Proof.
  assert (Hnone :
    mapLookup (delete haConfigStorageDir propsE) haConfigStorageDir = None)
    by (vm_compute; reflexivity).
  split; [exact Hnone|].
  apply (high_availability_missing_key
           (clusterOf (delete haConfigStorageDir propsE))).
  right. exists (delete haConfigStorageDir propsE), haConfigStorageDir.
  split; [reflexivity|]. split; [auto | exact Hnone].
Defined.

Lemma GetHAConfigMapName_injective_example :
  mapIndex (Some propsE) haConfigClusterId
  = mapIndex (Some (<[haConfigType := "kubernetes"]> propsE)) haConfigClusterId.
Proof.
  apply (GetHAConfigMapName_injective (clusterOf propsE)
           (clusterOf (<[haConfigType := "kubernetes"]> propsE)));
    vm_compute; reflexivity.
Defined.

Lemma high_availability_off_values_example :
  List.In "None" noneSpellings
  /\ IsHighAvailabilityEnabled (clusterOf propsOff) = false.
Proof.
  assert (Hin : List.In "None" noneSpellings)
    by (unfold noneSpellings; simpl; tauto).
  split; [exact Hin|].
  apply (proj2 (high_availability_off_values propsOff "None" "c1" "s3://ha"
                  ltac:(vm_compute; reflexivity) ltac:(vm_compute; reflexivity)
                  ltac:(vm_compute; reflexivity) eq_refl eq_refl)).
  exact Hin.
Defined.
